(** * coda-mcp: the page tools of [src/server.ts] and the export poller

    A shallow embedding of the tool handlers [coda_list_pages],
    [coda_get_page_content], [coda_peek_page] and [coda_duplicate_page]
    of [src/server.ts], together with the JavaScript primitives they rely
    on ([String.prototype.split] on [/\r?\n/], [Array.prototype.slice],
    [Array.prototype.join], template-literal coercion of a caught value),
    and of the export poller that the specification places behind
    [getPageContent] (module [./client/helpers]). *)

From Stdlib Require Import String Ascii List ZArith QArith Qminmax.
From Stdlib Require Import Bool Lia.
Import ListNotations.

(* ================================================================== *)
(** ** JavaScript primitives used by the handlers *)
(* ================================================================== *)

Module Js.

Local Open Scope string_scope.

Definition LF : ascii := ascii_of_nat 10.
Definition CR : ascii := ascii_of_nat 13.

(** Truthiness of a [string | undefined] value: [undefined] and the empty
    string are falsy, every other string is truthy. *)
Definition truthy (v : option string) : bool :=
  match v with
  | None => false
  | Some s => negb (s =? "")
  end.

(** [v ?? undefined] on a [string | undefined] value. *)
Definition nullish_undefined (v : option string) : option string :=
  match v with
  | None => None
  | Some s => Some s
  end.

(** Prepend a character to the first piece of a split. *)
Definition push_char (c : ascii) (pieces : list string) : list string :=
  match pieces with
  | [] => [String c ""]
  | p :: ps => String c p :: ps
  end.

(** [s.split(/\r?\n/)]: the leftmost match at each position is taken, so a
    carriage return directly followed by a line feed is consumed with it;
    a carriage return on its own is an ordinary character.  The empty
    string yields one empty piece (the pattern does not match the empty
    string). *)
Fixpoint split_lines (s : string) : list string :=
  match s with
  | EmptyString => [""]
  | String c rest =>
      if (c =? LF)%char then "" :: split_lines rest
      else
        let keep := push_char c (split_lines rest) in
        if (c =? CR)%char then
          match rest with
          | String c' rest' =>
              if (c' =? LF)%char then "" :: split_lines rest' else keep
          | EmptyString => keep
          end
        else keep
  end.

(** [l.slice(0, end)] for an integral [end]: a negative [end] counts from
    the back, and the result is clamped to the array. *)
Definition slice0 {A : Type} (end_ : Z) (l : list A) : list A :=
  let len := Z.of_nat (length l) in
  let final := if (end_ <? 0)%Z then Z.max (len + end_) 0 else Z.min end_ len in
  firstn (Z.to_nat final) l.

(** [l.join(sep)] on an array of strings. *)
Fixpoint join (sep : string) (l : list string) : string :=
  match l with
  | [] => ""
  | [x] => x
  | x :: xs => x ++ sep ++ join sep xs
  end.

(** The content with every [\r\n] pair replaced by [\n]. *)
Fixpoint normalize_newlines (s : string) : string :=
  match s with
  | EmptyString => ""
  | String c rest =>
      if (c =? CR)%char then
        match rest with
        | String c' rest' =>
            if (c' =? LF)%char then String LF (normalize_newlines rest')
            else String c (normalize_newlines rest)
        | EmptyString => String c ""
        end
      else String c (normalize_newlines rest)
  end.

(** Number of line feeds in a string. *)
Fixpoint count_LF (s : string) : nat :=
  match s with
  | EmptyString => 0%nat
  | String c rest => ((if (c =? LF)%char then 1 else 0) + count_LF rest)%nat
  end.

(** A value that can be thrown and caught: an [Error] instance with its
    [name] and [message]; another value that coerces to a string, kept as
    that string; or a value whose coercion to a string itself throws (a
    [Symbol], an object whose [toString] and [valueOf] are not callable or
    throw), kept with what the coercion throws. *)
Inductive Thrown : Type :=
| ErrorObject (name message : string)
| ThrownValue (rendering : string)
| Uncoercible (raised : Thrown).

(** [new Error(message)]. *)
Definition new_Error (message : string) : Thrown := ErrorObject "Error" message.

(** The coercion made by a template literal, which gives a string or
    throws: [Error.prototype.toString] for an [Error] instance. *)
Definition template (e : Thrown) : Thrown + string :=
  match e with
  | ErrorObject name message =>
      inr (if name =? "" then message
           else if message =? "" then name
           else name ++ ": " ++ message)
  | ThrownValue rendering => inr rendering
  | Uncoercible raised => inl raised
  end.

End Js.

(* ================================================================== *)
(** ** The tool handlers of [src/server.ts] *)
(* ================================================================== *)

Module Server.

Import Js.
Local Open Scope string_scope.

(** *** Requests issued to the client layer *)

(** [listPages({ path: { docId }, query: { limit, pageToken } })]. *)
Record ListPagesOptions : Type := {
  lp_docId : string;
  lp_limit : option Z;
  lp_pageToken : option string
}.

(** [createPage({ path: { docId }, body: { name, pageContent: { type:
    "canvas", canvasContent: { format, content } } } })]. *)
Record CreatePageOptions : Type := {
  cp_docId : string;
  cp_name : string;
  cp_type : string;
  cp_format : string;
  cp_content : option string
}.

Inductive Call : Type :=
| GetPageContent (docId pageIdOrName : string)
| CreatePage (opts : CreatePageOptions)
| ListPages (opts : ListPagesOptions).

(** The client layer ([./client/helpers] and [./client/sdk.gen]): each
    operation either throws or resolves.  [resp.data] is kept as what
    [JSON.stringify] gives for it: a text, or [undefined] ([None]) when the
    data is [undefined]. *)
Record Client : Type := {
  getPageContent : string -> string -> Thrown + option string;
  createPage : CreatePageOptions -> Thrown + option string;
  listPages : ListPagesOptions -> Thrown + option string
}.

(** *** A small monad for [async] bodies: the log of calls issued so far is
    threaded, and a computation either throws or returns. *)

Definition Async (A : Type) : Type := list Call -> (Thrown + A) * list Call.

Definition ret {A : Type} (a : A) : Async A := fun log => (inr a, log).

Definition throw {A : Type} (e : Thrown) : Async A := fun log => (inl e, log).

Definition bind {A B : Type} (m : Async A) (k : A -> Async B) : Async B :=
  fun log =>
    match m log with
    | (inl e, log') => (inl e, log')
    | (inr a, log') => k a log'
    end.

Definition try_catch {A : Type} (body : Async A) (handler : Thrown -> Async A)
  : Async A :=
  fun log =>
    match body log with
    | (inl e, log') => handler e log'
    | (inr a, log') => (inr a, log')
    end.

Definition call {A : Type} (c : Call) (outcome : Thrown + A) : Async A :=
  fun log => (outcome, (log ++ [c])%list).

(** [`${error}`] inside an [async] body: the coercion gives the text or
    throws, and issues no call. *)
Definition to_string (error : Thrown) : Async string :=
  fun log => (template error, log).

Notation "'let*' x ':=' 'await' m 'in' k" := (bind m (fun x => k))
  (at level 10, x name, m at level 100, k at level 200).

(** *** Tool results *)

(** [{ type: "text", text }]; [TextUndefined] is the item whose [text] is
    [undefined]. *)
Inductive ContentItem : Type :=
| Text (text : string)
| TextUndefined.

(** [isError] is [true] where the source sets it and [false] where the
    source leaves it out. *)
Record CallToolResult : Type := {
  content : list ContentItem;
  isError : bool
}.

Definition success (text : string) : CallToolResult :=
  {| content := [Text text]; isError := false |}.

Definition failure (text : string) : CallToolResult :=
  {| content := [Text text]; isError := true |}.

(** [{ content: [{ type: "text", text: JSON.stringify(resp.data) }] }]. *)
Definition stringified (data : option string) : CallToolResult :=
  match data with
  | Some text => success text
  | None => {| content := [TextUndefined]; isError := false |}
  end.

(** *** Handlers *)

Definition coda_list_pages (cl : Client) (docId : string) (limit : option Z)
    (nextPageToken : option string) : Async CallToolResult :=
  try_catch
    (let listLimit := if truthy nextPageToken then None else limit in
     let opts := {| lp_docId := docId;
                    lp_limit := listLimit;
                    lp_pageToken := nullish_undefined nextPageToken |} in
     let* data := await call (ListPages opts) (listPages cl opts) in
     ret (stringified data))
    (fun error =>
       bind (to_string error)
            (fun text => ret (failure ("Failed to list pages: " ++ text)))).

Definition coda_get_page_content (cl : Client) (docId pageIdOrName : string)
  : Async CallToolResult :=
  try_catch
    (let* content := await call (GetPageContent docId pageIdOrName)
                                 (getPageContent cl docId pageIdOrName) in
     match content with
     | None => throw (new_Error "Unknown error has occurred")
     | Some text => ret (success text)
     end)
    (fun error =>
       bind (to_string error)
            (fun text => ret (failure ("Failed to get page content: " ++ text)))).

Definition coda_peek_page (cl : Client) (docId pageIdOrName : string)
    (numLines : Z) : Async CallToolResult :=
  try_catch
    (let* content := await call (GetPageContent docId pageIdOrName)
                                 (getPageContent cl docId pageIdOrName) in
     if negb (truthy content) then throw (new_Error "Unknown error has occurred")
     else
       let text := match content with Some t => t | None => "" end in
       let preview := join (String LF "") (slice0 numLines (split_lines text)) in
       ret (success preview))
    (fun error =>
       bind (to_string error)
            (fun text => ret (failure ("Failed to peek page: " ++ text)))).

Definition coda_duplicate_page (cl : Client) (docId pageIdOrName newName : string)
  : Async CallToolResult :=
  try_catch
    (let* pageContent := await call (GetPageContent docId pageIdOrName)
                                     (getPageContent cl docId pageIdOrName) in
     let opts := {| cp_docId := docId;
                    cp_name := newName;
                    cp_type := "canvas";
                    cp_format := "markdown";
                    cp_content := pageContent |} in
     let* data := await call (CreatePage opts) (createPage cl opts) in
     ret (stringified data))
    (fun error =>
       bind (to_string error)
            (fun text => ret (failure ("Failed to duplicate page: " ++ text)))).

End Server.

(* ================================================================== *)
(** ** The export poller behind [getPageContent] *)
(* ================================================================== *)

Module Poller.

Local Open Scope Q_scope.

(** Modelled from the spec: the status enumeration of an export job
    ([./client/helpers] is missing from the sources). *)
Inductive JobStatus : Type := Pending | InProgress | Complete | Failed.

(** Modelled from the spec: the terminal states are Complete and Failed. *)
Definition is_terminal (s : JobStatus) : bool :=
  match s with
  | Complete | Failed => true
  | Pending | InProgress => false
  end.

(** Modelled from the spec: a page reference is a document id with a page id
    or name. *)
Record PageRef : Type := {
  documentId : string;
  pageIdOrName : string
}.

(** Modelled from the spec: the ExportJob of the data model. *)
Record ExportJob : Type := {
  jobId : string;
  pageRef : PageRef;
  status : JobStatus;
  contentLocator : option string;
  failureReason : option string
}.

(** Modelled from the spec: the PollPolicy of the data model; delays and the
    time budget are rationals, the attempt budget a natural number. *)
Record PollPolicy : Type := {
  maxAttempts : nat;
  initialDelay : Q;
  backoffMultiplier : Q;
  maxDelay : Q;
  overallTimeout : Q
}.

(** Modelled from the spec: what [getExportStatus(jobId)] answers. *)
Record StatusReport : Type := {
  reportedStatus : JobStatus;
  reportedLocator : option string;
  reportedReason : option string
}.

(** Modelled from the spec: a status query answers, or fails transiently. *)
Inductive QueryOutcome : Type :=
| Reported (r : StatusReport)
| TransientFailure.

(** Modelled from the spec: the remote service, as the answer it gives to the
    query of each attempt (attempts are counted from 0). *)
Definition Remote : Type := nat -> QueryOutcome.

(** Modelled from the spec: the job after a status report.  A report of
    Complete without a content locator is turned into Failed with the
    reason "missing content locator"; the locator is kept only with
    Complete and the failure reason only with Failed. *)
Definition record_report (job : ExportJob) (r : StatusReport) : ExportJob :=
  match reportedStatus r with
  | Complete =>
      match reportedLocator r with
      | Some l =>
          {| jobId := jobId job; pageRef := pageRef job; status := Complete;
             contentLocator := Some l; failureReason := None |}
      | None =>
          {| jobId := jobId job; pageRef := pageRef job; status := Failed;
             contentLocator := None;
             failureReason := Some "missing content locator"%string |}
      end
  | Failed =>
      {| jobId := jobId job; pageRef := pageRef job; status := Failed;
         contentLocator := None; failureReason := reportedReason r |}
  | s =>
      {| jobId := jobId job; pageRef := pageRef job; status := s;
         contentLocator := None; failureReason := None |}
  end.

(** Modelled from the spec: [delay = min(delay * backoffMultiplier,
    maxDelay)]. *)
Definition next_delay (p : PollPolicy) (delay : Q) : Q :=
  Qmin (delay * backoffMultiplier p) (maxDelay p).



(** Modelled from the spec: the outcome of [awaitCompletion], a job in a
    terminal state or PollTimeout with the last known status. *)
Inductive PollResult : Type :=
| Returned (job : ExportJob)
| PollTimeout (lastKnown : JobStatus).

(** Modelled from the spec: what a run of the poller does, in order: a status
    query (with the attempt number and the status known when it is issued)
    or a suspension for a delay. *)
Inductive Event : Type :=
| Query (attempt : nat) (known : JobStatus)
| Suspend (delay : Q).

(** [elapsed < overallTimeout]. *)
Definition under_timeout (p : PollPolicy) (elapsed : Q) : bool :=
  negb (Qle_bool (overallTimeout p) elapsed).

(** Modelled from the spec: the polling loop of section 4.2, with [left]
    attempts left.  Each attempt queries the status; a terminal report
    returns at once; a non-terminal report or a transient query failure
    uses up the attempt, and the loop suspends for [delay], clamps the next
    delay and retries while attempts remain and the elapsed time is under
    [overallTimeout]; otherwise it fails with PollTimeout and the last
    known status.  The clock counts the time spent suspended. *)
Fixpoint poll (remote : Remote) (p : PollPolicy) (left attempt : nat)
    (delay elapsed : Q) (job : ExportJob) : PollResult * list Event :=
  match left with
  | O => (PollTimeout (status job), [])
  | S left' =>
      let ev := Query attempt (status job) in
      let retry (known : ExportJob) :=
        match left' with
        | O => (PollTimeout (status known), [ev])
        | S _ =>
            if under_timeout p elapsed then
              let (res, evs) :=
                poll remote p left' (S attempt) (next_delay p delay)
                     (elapsed + delay) known in
              (res, ev :: Suspend delay :: evs)
            else (PollTimeout (status known), [ev])
        end in
      match remote attempt with
      | Reported r =>
          let job' := record_report job r in
          if is_terminal (status job') then (Returned job', [ev])
          else retry job'
      | TransientFailure => retry job
      end
  end.

(** Modelled from the spec: [awaitCompletion(job, policy)]; the attempt
    counter starts at 0, the delay at [initialDelay]. *)
Definition awaitCompletion (remote : Remote) (job : ExportJob) (p : PollPolicy)
  : PollResult * list Event :=
  poll remote p (maxAttempts p) 0 (initialDelay p) 0 job.


Fixpoint suspensions (evs : list Event) : list Q :=
  match evs with
  | [] => []
  | Query _ _ :: evs' => suspensions evs'
  | Suspend d :: evs' => d :: suspensions evs'
  end.

(** Whether the answer to a query shows a terminal state. *)
Definition answer_terminal (o : QueryOutcome) : bool :=
  match o with
  | Reported r => is_terminal (reportedStatus r)
  | TransientFailure => false
  end.

(** The job as known once the answer to attempt [k] is taken in: a report is
    recorded, a transient failure leaves the job as it was. *)
Definition absorb (remote : Remote) (job : ExportJob) (k : nat) : ExportJob :=
  match remote k with
  | Reported r => record_report job r
  | TransientFailure => job
  end.


End Poller.

(* ================================================================== *)
(** ** Concrete inputs used in the examples below *)
(* ================================================================== *)

Module Examples.

Import Js Server Poller.
Local Open Scope string_scope.

Definition nl : string := String LF "".
Definition crlf : string := String CR (String LF "").

(** A client whose [getPageContent] resolves to [content] and whose other
    operations resolve. *)
Definition client_with_content (content : option string) : Client :=
  {| getPageContent := fun _ _ => inr content;
     createPage := fun _ => inr (Some "{}");
     listPages := fun _ => inr (Some "{}") |}.





(** A client whose [createPage] and [listPages] resolve without data. *)
Definition client_without_data (content : option string) : Client :=
  {| getPageContent := fun _ _ => inr content;
     createPage := fun _ => inr None;
     listPages := fun _ => inr None |}.

Definition job_j1 : ExportJob :=
  {| jobId := "j1";
     pageRef := {| documentId := "doc"; pageIdOrName := "page" |};
     status := Pending;
     contentLocator := None;
     failureReason := None |}.

Definition policy_100_2_1000 : PollPolicy :=
  {| maxAttempts := 8; initialDelay := 100; backoffMultiplier := 2;
     maxDelay := 1000; overallTimeout := 100000 |}.



Definition in_progress : QueryOutcome :=
  Reported {| reportedStatus := InProgress; reportedLocator := None;
              reportedReason := None |}.

Definition complete_with (locator : option string) : QueryOutcome :=
  Reported {| reportedStatus := Complete; reportedLocator := locator;
              reportedReason := None |}.

(** InProgress twice, one transient query failure, then Complete with
    [locator]. *)
Definition remote_completing (locator : option string) : Remote :=
  fun k =>
    match k with
    | 0%nat | 1%nat => in_progress
    | 2%nat => TransientFailure
    | _ => complete_with locator
    end.

(** A remote service that never leaves InProgress. *)
Definition remote_stuck : Remote := fun _ => in_progress.

End Examples.

(* ================================================================== *)
(** ** The other tool handlers of [src/server.ts] *)
(* ================================================================== *)

Module Tools.

Import Js.
Local Open Scope string_scope.

(** *** Argument types of the schemas *)

(** [z.enum(["createdAt", "natural", "updatedAt"])]. *)
Inductive RowSort : Type := CreatedAt | Natural | UpdatedAt.

(** [z.enum(["simple", "simpleWithArrays", "rich"])]. *)
Inductive ValueFormat : Type := Simple | SimpleWithArrays | Rich.

(** [z.enum(["table", "view"])]. *)
Inductive TableType : Type := Table | View.

(** [z.literal("name")]. *)
Inductive TableSort : Type := ByName.

(** [z.union([z.string(), z.number(), z.boolean()])]. *)
Inductive Scalar : Type :=
| SString (s : string)
| SNumber (q : Q)
| SBool (b : bool).

(** A cell value: a scalar or an array of scalars. *)
Inductive CellValue : Type :=
| One (v : Scalar)
| Several (vs : list Scalar).

Record Cell : Type := {
  column : string;
  value : CellValue
}.

(** A row of [coda_upsert_rows]: [{ cells }]. *)
Record Row : Type := {
  cells : list Cell
}.

(** [contentUpdate: { insertionMode, canvasContent: { format, content } }]. *)
Record ContentUpdate : Type := {
  insertionMode : string;
  cu_format : string;
  cu_content : string
}.

(** *** Requests to [./client/sdk.gen]

    One constructor for each operation, with the fields of [path], [query]
    and [body] the handlers pass; an optional field left [undefined] is
    [None]. *)
Inductive Request : Type :=
| ListDocs (query : option string)
| CreatePage (docId name : string) (parentPageId : option string)
    (type format : string) (content : option string)
| UpdatePage (docId pageIdOrName : string) (name : option string)
    (contentUpdate : option ContentUpdate)
| ResolveBrowserLink (url : string)
| ListRows (docId tableIdOrName : string) (query : option string)
    (sortBy : option RowSort) (valueFormat : option ValueFormat)
    (visibleOnly : option bool) (limit : option Z) (pageToken : option string)
| UpdateRow (docId tableIdOrName rowIdOrName : string) (cells : list Cell)
    (disableParsing : option bool)
| UpsertRows (docId tableIdOrName : string) (rows : list Row)
    (keyColumns : option (list string)) (disableParsing : option bool)
| ListTables (docId : string) (limit : option Z) (pageToken : option string)
    (sortBy : option TableSort) (tableTypes : option (list TableType))
| GetTable (docId tableIdOrName : string)
| ListColumns (docId tableIdOrName : string) (limit : option Z)
    (pageToken : option string) (visibleOnly : option bool)
| GetColumn (docId tableIdOrName columnIdOrName : string)
| GetRow (docId tableIdOrName rowIdOrName : string)
    (valueFormat : option ValueFormat) (useColumnNames : option bool)
| DeleteRow (docId tableIdOrName rowIdOrName : string)
| DeleteRows (docId tableIdOrName : string) (rowIds : list string)
| PushButton (docId tableIdOrName rowIdOrName columnIdOrName : string).

(** The generated client, called with [throwOnError: true]: a request either
    throws or resolves, and [resp.data] is kept as what [JSON.stringify]
    gives for it: a text, or [undefined] ([None]) when the data is
    [undefined]. *)
Definition Sdk : Type := Request -> Thrown + option string.

(** *** [async] bodies over these requests *)

Definition Async (A : Type) : Type :=
  list Request -> (Thrown + A) * list Request.

Definition ret {A : Type} (a : A) : Async A := fun log => (inr a, log).

Definition bind {A B : Type} (m : Async A) (k : A -> Async B) : Async B :=
  fun log =>
    match m log with
    | (inl e, log') => (inl e, log')
    | (inr a, log') => k a log'
    end.

Definition try_catch {A : Type} (body : Async A) (handler : Thrown -> Async A)
  : Async A :=
  fun log =>
    match body log with
    | (inl e, log') => handler e log'
    | (inr a, log') => (inr a, log')
    end.

(** [await op(options)]: the request is issued, then its outcome is had. *)
Definition send (sdk : Sdk) (r : Request) : Async (option string) :=
  fun log => (sdk r, (log ++ [r])%list).

(** [`${error}`] inside an [async] body. *)
Definition to_string (error : Thrown) : Async string :=
  fun log => (template error, log).

Notation "'let*' x ':=' 'await' m 'in' k" := (bind m (fun x => k))
  (at level 10, x name, m at level 100, k at level 200).

(** *** Handlers *)

Definition coda_list_documents (sdk : Sdk) (query : option string)
  : Async Server.CallToolResult :=
  try_catch
    (let* data := await send sdk (ListDocs query) in
     ret (Server.stringified data))
    (fun error =>
       bind (to_string error)
            (fun text => ret (Server.failure ("Failed to list documents: " ++ text)))).

Definition coda_create_page (sdk : Sdk) (docId name : string)
    (content parentPageId : option string) : Async Server.CallToolResult :=
  try_catch
    (let* data := await send sdk
        (CreatePage docId name (nullish_undefined parentPageId)
           "canvas" "markdown"
           (Some (match content with Some c => c | None => " " end))) in
     ret (Server.stringified data))
    (fun error =>
       bind (to_string error)
            (fun text => ret (Server.failure ("Failed to create page: " ++ text)))).

Definition coda_replace_page_content (sdk : Sdk)
    (docId pageIdOrName content : string) : Async Server.CallToolResult :=
  try_catch
    (let* data := await send sdk
        (UpdatePage docId pageIdOrName None
           (Some {| insertionMode := "replace"; cu_format := "markdown";
                    cu_content := content |})) in
     ret (Server.stringified data))
    (fun error =>
       bind (to_string error)
            (fun text => ret (Server.failure ("Failed to replace page content: " ++ text)))).

Definition coda_append_page_content (sdk : Sdk)
    (docId pageIdOrName content : string) : Async Server.CallToolResult :=
  try_catch
    (let* data := await send sdk
        (UpdatePage docId pageIdOrName None
           (Some {| insertionMode := "append"; cu_format := "markdown";
                    cu_content := content |})) in
     ret (Server.stringified data))
    (fun error =>
       bind (to_string error)
            (fun text => ret (Server.failure ("Failed to append page content: " ++ text)))).

Definition coda_rename_page (sdk : Sdk) (docId pageIdOrName newName : string)
  : Async Server.CallToolResult :=
  try_catch
    (let* data := await send sdk
        (UpdatePage docId pageIdOrName (Some newName) None) in
     ret (Server.stringified data))
    (fun error =>
       bind (to_string error)
            (fun text => ret (Server.failure ("Failed to rename page: " ++ text)))).

Definition coda_resolve_link (sdk : Sdk) (url : string) : Async Server.CallToolResult :=
  try_catch
    (let* data := await send sdk (ResolveBrowserLink url) in
     ret (Server.stringified data))
    (fun error =>
       bind (to_string error)
            (fun text => ret (Server.failure ("Failed to resolve link: " ++ text)))).

Definition coda_list_rows (sdk : Sdk) (docId tableIdOrName : string)
    (query : option string) (sortBy : option RowSort)
    (valueFormat : option ValueFormat) (visibleOnly : option bool)
    (limit : option Z) (pageToken : option string) : Async Server.CallToolResult :=
  try_catch
    (let* data := await send sdk
        (ListRows docId tableIdOrName query sortBy valueFormat visibleOnly
                  limit pageToken) in
     ret (Server.stringified data))
    (fun error =>
       bind (to_string error)
            (fun text => ret (Server.failure ("Failed to list rows: " ++ text)))).

Definition coda_update_row (sdk : Sdk) (docId tableIdOrName rowIdOrName : string)
    (cells : list Cell) (disableParsing : option bool) : Async Server.CallToolResult :=
  try_catch
    (let* data := await send sdk
        (UpdateRow docId tableIdOrName rowIdOrName cells disableParsing) in
     ret (Server.stringified data))
    (fun error =>
       bind (to_string error)
            (fun text => ret (Server.failure ("Failed to update row: " ++ text)))).

Definition coda_upsert_rows (sdk : Sdk) (docId tableIdOrName : string)
    (rows : list Row) (keyColumns : option (list string))
    (disableParsing : option bool) : Async Server.CallToolResult :=
  try_catch
    (let* data := await send sdk
        (UpsertRows docId tableIdOrName rows keyColumns disableParsing) in
     ret (Server.stringified data))
    (fun error =>
       bind (to_string error)
            (fun text => ret (Server.failure ("Failed to upsert rows: " ++ text)))).

Definition coda_list_tables (sdk : Sdk) (docId : string) (limit : option Z)
    (pageToken : option string) (sortBy : option TableSort)
    (tableTypes : option (list TableType)) : Async Server.CallToolResult :=
  try_catch
    (let* data := await send sdk
        (ListTables docId limit pageToken sortBy tableTypes) in
     ret (Server.stringified data))
    (fun error =>
       bind (to_string error)
            (fun text => ret (Server.failure ("Failed to list tables: " ++ text)))).

Definition coda_get_table (sdk : Sdk) (docId tableIdOrName : string)
  : Async Server.CallToolResult :=
  try_catch
    (let* data := await send sdk (GetTable docId tableIdOrName) in
     ret (Server.stringified data))
    (fun error =>
       bind (to_string error)
            (fun text => ret (Server.failure ("Failed to get table: " ++ text)))).

Definition coda_list_columns (sdk : Sdk) (docId tableIdOrName : string)
    (limit : option Z) (pageToken : option string) (visibleOnly : option bool)
  : Async Server.CallToolResult :=
  try_catch
    (let* data := await send sdk
        (ListColumns docId tableIdOrName limit pageToken visibleOnly) in
     ret (Server.stringified data))
    (fun error =>
       bind (to_string error)
            (fun text => ret (Server.failure ("Failed to list columns: " ++ text)))).

Definition coda_get_column (sdk : Sdk)
    (docId tableIdOrName columnIdOrName : string) : Async Server.CallToolResult :=
  try_catch
    (let* data := await send sdk (GetColumn docId tableIdOrName columnIdOrName) in
     ret (Server.stringified data))
    (fun error =>
       bind (to_string error)
            (fun text => ret (Server.failure ("Failed to get column: " ++ text)))).

Definition coda_get_row (sdk : Sdk) (docId tableIdOrName rowIdOrName : string)
    (valueFormat : option ValueFormat) (useColumnNames : option bool)
  : Async Server.CallToolResult :=
  try_catch
    (let* data := await send sdk
        (GetRow docId tableIdOrName rowIdOrName valueFormat useColumnNames) in
     ret (Server.stringified data))
    (fun error =>
       bind (to_string error)
            (fun text => ret (Server.failure ("Failed to get row: " ++ text)))).

Definition coda_delete_row (sdk : Sdk) (docId tableIdOrName rowIdOrName : string)
  : Async Server.CallToolResult :=
  try_catch
    (let* data := await send sdk (DeleteRow docId tableIdOrName rowIdOrName) in
     ret (Server.stringified data))
    (fun error =>
       bind (to_string error)
            (fun text => ret (Server.failure ("Failed to delete row: " ++ text)))).

Definition coda_delete_rows (sdk : Sdk) (docId tableIdOrName : string)
    (rowIds : list string) : Async Server.CallToolResult :=
  try_catch
    (let* data := await send sdk (DeleteRows docId tableIdOrName rowIds) in
     ret (Server.stringified data))
    (fun error =>
       bind (to_string error)
            (fun text => ret (Server.failure ("Failed to delete rows: " ++ text)))).

Definition coda_push_button (sdk : Sdk)
    (docId tableIdOrName rowIdOrName columnIdOrName : string)
  : Async Server.CallToolResult :=
  try_catch
    (let* data := await send sdk
        (PushButton docId tableIdOrName rowIdOrName columnIdOrName) in
     ret (Server.stringified data))
    (fun error =>
       bind (to_string error)
            (fun text => ret (Server.failure ("Failed to push button: " ++ text)))).

(** *** Relating the two layers *)

(** The [createPage] request of [coda_duplicate_page], which passes no
    [parentPageId], as a request of this layer. *)
Definition of_duplicate_request (o : Server.CreatePageOptions) : Request :=
  CreatePage (Server.cp_docId o) (Server.cp_name o) None
             (Server.cp_type o) (Server.cp_format o) (Server.cp_content o).

(** An SDK that resolves every request with [data], and one that throws [e]
    on every request. *)
Definition sdk_resolving (data : string) : Sdk :=
  fun _ => inr (Some data).
Definition sdk_throwing (e : Thrown) : Sdk := fun _ => inl e.

End Tools.

(* ================================================================== *)
(** ** Facts about the JavaScript primitives *)
(* ================================================================== *)

Module JsFacts.

Import Js.
Local Open Scope nat_scope.
Local Open Scope string_scope.

Lemma split_lines_nonempty (s : string) : split_lines s <> [].
Proof.
  destruct s as [|c rest]; simpl; [discriminate|].
  destruct (c =? LF)%char; [discriminate|].
  assert (K : push_char c (split_lines rest) <> [])
    by (unfold push_char; destruct (split_lines rest); discriminate).
  destruct (c =? CR)%char; [|exact K].
  destruct rest as [|c' rest']; [exact K|].
  destruct (c' =? LF)%char; [discriminate|exact K].
Qed.

Lemma join_cons (sep x : string) (xs : list string) :
  xs <> [] -> join sep (x :: xs) = x ++ sep ++ join sep xs.
Proof. destruct xs; [congruence|reflexivity]. Qed.

Lemma join_push_char (sep : string) (c : ascii) (ps : list string) :
  ps <> [] -> join sep (push_char c ps) = String c (join sep ps).
Proof.
  destruct ps as [|p [|q qs]]; [congruence| |]; intros _; reflexivity.
Qed.

(** Strong induction on strings: a property that holds for a string as soon
    as it holds for every shorter one holds for all. *)
Lemma string_length_ind (P : string -> Prop) :
  (forall s, (forall t, String.length t < String.length s -> P t) -> P s) ->
  forall s, P s.
Proof.
  intros step s.
  remember (String.length s) as n eqn:E.
  revert s E. induction n as [n IH] using lt_wf_ind.
  intros s ->. apply step. intros t Ht. exact (IH _ Ht t eq_refl).
Qed.

(** Splitting on line boundaries and joining with a line feed only replaces
    each [\r\n] by [\n]. *)
Lemma join_split_lines (s : string) :
  join (String LF "") (split_lines s) = normalize_newlines s.
Proof.
  induction s as [s IH] using string_length_ind.
  destruct s as [|c rest]; [reflexivity|].
  assert (Hrest : join (String LF "") (split_lines rest) = normalize_newlines rest)
    by (apply IH; simpl; lia).
  assert (Hkeep : join (String LF "") (push_char c (split_lines rest))
                  = String c (normalize_newlines rest))
    by (rewrite join_push_char by apply split_lines_nonempty; now rewrite Hrest).
  simpl split_lines. simpl normalize_newlines.
  destruct (c =? LF)%char eqn:Elf.
  - apply Ascii.eqb_eq in Elf. subst c. simpl (_ =? _)%char. cbv iota.
    rewrite join_cons by apply split_lines_nonempty. now rewrite Hrest.
  - destruct (c =? CR)%char eqn:Ecr; [|exact Hkeep].
    destruct rest as [|c' rest'].
    + reflexivity.
    + destruct (c' =? LF)%char eqn:Elf'; [|exact Hkeep].
      rewrite join_cons by apply split_lines_nonempty.
      rewrite (IH rest') by (simpl; lia). reflexivity.
Qed.

(** A content without carriage returns is left as it is. *)
Lemma normalize_newlines_no_CR (s : string) :
  (forall c, c = CR -> ~ In c (list_ascii_of_string s)) ->
  normalize_newlines s = s.
Proof.
  induction s as [|c rest IH]; intros H; [reflexivity|].
  simpl. destruct (c =? CR)%char eqn:E.
  - apply Ascii.eqb_eq in E. exfalso. apply (H c E). simpl. now left.
  - f_equal. apply IH. intros c' Hc' Hin. apply (H c' Hc'). simpl. now right.
Qed.

Lemma count_LF_append (s t : string) :
  count_LF (s ++ t) = count_LF s + count_LF t.
Proof. induction s as [|c s IH]; simpl; [reflexivity|rewrite IH; lia]. Qed.

(** The pieces of a split contain no line feed, and there is one more piece
    than there are line feeds. *)
Lemma split_lines_pieces (s : string) :
  Forall (fun p => count_LF p = 0) (split_lines s)
  /\ length (split_lines s) = S (count_LF s).
Proof.
  induction s as [s IH] using string_length_ind.
  destruct s as [|c rest]; [split; [repeat constructor|reflexivity]|].
  destruct (IH rest) as [Frest Lrest]; [simpl; lia|].
  assert (Hkeep : (c =? LF)%char = false ->
            Forall (fun p => count_LF p = 0) (push_char c (split_lines rest))
            /\ length (push_char c (split_lines rest)) = S (count_LF rest)).
  { intros Elf. pose proof (split_lines_nonempty rest) as Hne.
    destruct (split_lines rest) as [|p ps]; [congruence|].
    simpl. inversion Frest; subst. split; [|exact Lrest].
    constructor; [simpl; rewrite Elf; assumption|assumption]. }
  simpl split_lines. simpl count_LF.
  destruct (c =? LF)%char eqn:Elf.
  - split; [constructor; [reflexivity|exact Frest]|simpl; now rewrite Lrest].
  - specialize (Hkeep eq_refl).
    destruct (c =? CR)%char eqn:Ecr; [|exact Hkeep].
    destruct rest as [|c' rest']; [exact Hkeep|].
    destruct (c' =? LF)%char eqn:Elf'; [|exact Hkeep].
    destruct (IH rest') as [F' L']; [simpl; lia|].
    simpl count_LF. rewrite Elf'.
    split; [constructor; [reflexivity|exact F']|simpl; now rewrite L'].
Qed.

Lemma count_LF_join (l : list string) :
  Forall (fun p => count_LF p = 0) l ->
  count_LF (join (String LF "") l) = pred (length l).
Proof.
  induction l as [|x xs IH]; intros F; [reflexivity|].
  inversion F as [|? ? Hx Hxs]; subst.
  destruct xs as [|y ys]; [simpl; exact Hx|].
  rewrite join_cons by discriminate.
  rewrite !count_LF_append, Hx, (IH Hxs). reflexivity.
Qed.

(** The lines of a joined prefix of a split are as many as were joined. *)
Lemma length_split_join (l : list string) :
  l <> [] -> Forall (fun p => count_LF p = 0) l ->
  length (split_lines (join (String LF "") l)) = length l.
Proof.
  intros Hne F.
  destruct (split_lines_pieces (join (String LF "") l)) as [_ ->].
  rewrite (count_LF_join l F). destruct l; [congruence|reflexivity].
Qed.

Lemma slice0_firstn {A : Type} (n : Z) (l : list A) :
  (0 <= n)%Z ->
  slice0 n l = firstn (Z.to_nat (Z.min n (Z.of_nat (length l)))) l.
Proof.
  intros Hn. unfold slice0.
  destruct (n <? 0)%Z eqn:E; [apply Z.ltb_lt in E; lia|reflexivity].
Qed.

Lemma length_firstn_min {A : Type} (n : Z) (l : list A) :
  (0 <= n)%Z ->
  Z.of_nat (length (firstn (Z.to_nat (Z.min n (Z.of_nat (length l)))) l))
  = Z.min n (Z.of_nat (length l)).
Proof. intros Hn. rewrite length_firstn. lia. Qed.

Lemma Forall_firstn {A : Type} (P : A -> Prop) (k : nat) (l : list A) :
  Forall P l -> Forall P (firstn k l).
Proof.
  intros F. revert k. induction F as [|x xs Hx Hxs IH]; intros [|k]; simpl;
    constructor; auto.
Qed.

End JsFacts.

(* ================================================================== *)
(** ** The page tools *)
(* ================================================================== *)

Module ServerFacts.

Import Js Server JsFacts Examples.
Local Open Scope nat_scope.
Local Open Scope string_scope.

Ltac run_handler :=
  unfold coda_list_pages, coda_get_page_content, coda_peek_page,
    coda_duplicate_page, try_catch, bind, call, to_string, ret, throw; simpl.

Lemma firstn_nonempty {A : Type} (k : nat) (l : list A) :
  0 < k -> l <> [] -> firstn k l <> [].
Proof. destruct k; [lia|]. destruct l; [congruence|discriminate]. Qed.

(** C1 (as the code has it): [coda_get_page_content] reports a failure
    thrown by [getPageContent] and also an absent ([undefined]) content as an
    error result, the latter with the message "Unknown error has occurred";
    a content that is present, the empty string included, is returned as a
    success carrying that content.  (A thrown value whose coercion to a
    string throws makes the handler reject with what the coercion throws.) *)
Theorem get_page_content_result (cl : Client) (docId page : string)
    (log : list Call) :
  coda_get_page_content cl docId page log =
    (match getPageContent cl docId page with
     | inl e =>
         match template e with
         | inr rendering =>
             inr {| content :=
                      [Text ("Failed to get page content: " ++ rendering)];
                    isError := true |}
         | inl raised => inl raised
         end
     | inr None =>
         inr {| content :=
                  [Text "Failed to get page content: Error: Unknown error has occurred"];
                isError := true |}
     | inr (Some text) => inr {| content := [Text text]; isError := false |}
     end,
     (log ++ [GetPageContent docId page])%list).
Proof.
  run_handler. destruct (getPageContent cl docId page) as [e|[text|]];
    try reflexivity.
  destruct (template e); reflexivity.
Qed.

(** C1, counterexample: a page whose content comes back absent although no
    stage failed is reported as an error, not as a success. *)
Lemma get_page_content_absent_is_error :
  coda_get_page_content (client_with_content None) "doc" "page" [] =
    (inr {| content :=
              [Text "Failed to get page content: Error: Unknown error has occurred"];
            isError := true |},
     [GetPageContent "doc" "page"]).
Proof. reflexivity. Qed.

(** C2, at the failing input: the content of the page is the empty string,
    whose split has one (empty) line, and one line is asked for.
    [coda_peek_page] returns the error result "Failed to peek page: Error:
    Unknown error has occurred" and not the empty preview, although no stage
    failed, while [coda_get_page_content] returns the same content as a
    success. *)
Theorem peek_empty_content_is_error :
  split_lines "" = [""]
  /\ coda_peek_page (client_with_content (Some "")) "doc" "page" 1 []
     = (inr {| content :=
                 [Text "Failed to peek page: Error: Unknown error has occurred"];
               isError := true |},
        [GetPageContent "doc" "page"])
  /\ coda_peek_page (client_with_content (Some "")) "doc" "page" 1 []
     <> (inr {| content := [Text (join (String LF "") (firstn 1 (split_lines "")))];
                isError := false |},
         [GetPageContent "doc" "page"])
  /\ coda_get_page_content (client_with_content (Some "")) "doc" "page" []
     = (inr {| content := [Text ""]; isError := false |},
        [GetPageContent "doc" "page"]).
Proof.
  split; [reflexivity|split; [reflexivity|split; [discriminate|reflexivity]]].
Qed.

(** X14: for a non-empty content and a positive integer [n],
    [coda_peek_page] returns, as a success, the first [min(n, totalLines)]
    lines of the content, split on [\n] and [\r\n] and rejoined with [\n];
    the preview has exactly that many lines; and when the page has at most
    [n] lines it is the whole content with each [\r\n] turned into [\n]. *)
Theorem peek_first_lines (cl : Client) (docId page content : string) (n : Z)
    (log : list Call) :
  getPageContent cl docId page = inr (Some content) ->
  content <> "" ->
  (0 < n)%Z ->
  let lines := split_lines content in
  let total := Z.of_nat (length lines) in
  let preview := join (String LF "") (firstn (Z.to_nat (Z.min n total)) lines) in
  coda_peek_page cl docId page n log
     = (inr {| content := [Text preview]; isError := false |},
        (log ++ [GetPageContent docId page])%list)
  /\ Z.of_nat (length (split_lines preview)) = Z.min n total
  /\ ((total <= n)%Z -> preview = normalize_newlines content).
Proof.
  intros Hget Hne Hn lines total preview.
  pose proof (split_lines_nonempty content) as Hlines.
  assert (Htotal : (1 <= total)%Z).
  { subst total lines. destruct (split_lines content); [congruence|simpl; lia]. }
  split; [|split].
  - run_handler. rewrite Hget. simpl.
    destruct content as [|c rest]; [congruence|]. simpl (negb _). cbv iota.
    rewrite slice0_firstn by lia. reflexivity.
  - subst preview. rewrite length_split_join.
    + apply length_firstn_min. lia.
    + apply firstn_nonempty; [lia|exact Hlines].
    + apply Forall_firstn. apply split_lines_pieces.
  - intros Hall. subst preview total.
    replace (Z.to_nat (Z.min n (Z.of_nat (length lines)))) with (length lines) by lia.
    rewrite firstn_all. apply join_split_lines.
Qed.

Lemma peek_first_lines_witness :
  coda_peek_page (client_with_content (Some ("a" ++ nl ++ "b" ++ crlf ++ "c")))
                 "doc" "page" 2 []
  = (inr {| content := [Text ("a" ++ nl ++ "b")]; isError := false |},
     [GetPageContent "doc" "page"]).
Proof.
  destruct (peek_first_lines
              (client_with_content (Some ("a" ++ nl ++ "b" ++ crlf ++ "c")))
              "doc" "page" ("a" ++ nl ++ "b" ++ crlf ++ "c") 2 [] eq_refl)
    as (H & _); [discriminate|reflexivity|exact H].
Defined.







(** C9: when the content retrieved for a page is the empty string,
    [coda_peek_page] returns the error result "Failed to peek page: Error:
    Unknown error has occurred" and no preview, whatever [numLines] is: its
    check [!content] holds for the empty string as it does for an absent
    content. *)
Theorem peek_empty_string_is_error (cl : Client) (docId page : string) (n : Z)
    (log : list Call) :
  getPageContent cl docId page = inr (Some "") ->
  coda_peek_page cl docId page n log
    = (inr {| content :=
                [Text "Failed to peek page: Error: Unknown error has occurred"];
              isError := true |},
       (log ++ [GetPageContent docId page])%list).
Proof. intros Hget. run_handler. now rewrite Hget. Qed.

Lemma peek_empty_string_is_error_witness :
  coda_peek_page (client_with_content (Some "")) "doc" "page" 30 []
    = (inr {| content :=
                [Text "Failed to peek page: Error: Unknown error has occurred"];
              isError := true |},
       [GetPageContent "doc" "page"]).
Proof.
  exact (peek_empty_string_is_error (client_with_content (Some ""))
           "doc" "page" 30 [] eq_refl).
Defined.

(** C10 (as the code has it): when [coda_list_pages] is given a non-empty
    [nextPageToken], the one [listPages] call it issues has no limit and
    carries the token; when the token is absent or the empty string, the
    limit given by the caller is forwarded unchanged. *)
Theorem list_pages_limit_and_token (cl : Client) (docId : string)
    (limit : option Z) (log : list Call) :
  (forall token, token <> "" ->
     snd (coda_list_pages cl docId limit (Some token) log)
       = (log ++ [ListPages {| lp_docId := docId; lp_limit := None;
                               lp_pageToken := Some token |}])%list)
  /\ snd (coda_list_pages cl docId limit (Some "") log)
       = (log ++ [ListPages {| lp_docId := docId; lp_limit := limit;
                               lp_pageToken := Some "" |}])%list
  /\ snd (coda_list_pages cl docId limit None log)
       = (log ++ [ListPages {| lp_docId := docId; lp_limit := limit;
                               lp_pageToken := None |}])%list.
Proof.
  split; [|split].
  - intros [|c rest] Hne; [congruence|]. run_handler.
    destruct (listPages cl _) as [e|data]; [destruct (template e)|];
      reflexivity.
  - run_handler.
    destruct (listPages cl _) as [e|data]; [destruct (template e)|];
      reflexivity.
  - run_handler.
    destruct (listPages cl _) as [e|data]; [destruct (template e)|];
      reflexivity.
Qed.

Lemma list_pages_limit_and_token_witness :
  snd (coda_list_pages (client_with_content None) "doc" (Some 10%Z)
                       (Some "token") [])
    = [ListPages {| lp_docId := "doc"; lp_limit := None;
                    lp_pageToken := Some "token" |}].
Proof.
  apply (proj1 (list_pages_limit_and_token (client_with_content None) "doc"
                  (Some 10%Z) []) "token").
  discriminate.
Defined.

(** C10, counterexample: a supplied token that is the empty string does not
    make the handler drop the limit. *)
Lemma list_pages_empty_token_keeps_limit :
  exists opts,
    snd (coda_list_pages (client_with_content None) "doc" (Some 10%Z) (Some "") [])
      = [ListPages opts]
    /\ lp_pageToken opts = Some ""
    /\ lp_limit opts = Some 10%Z
    /\ lp_limit opts <> None.
Proof.
  eexists. split; [reflexivity|]. split; [reflexivity|].
  split; [reflexivity|discriminate].
Qed.

End ServerFacts.

(* ================================================================== *)
(** ** The export poller *)
(* ================================================================== *)

Module PollerFacts.

Import Poller Examples.
Local Open Scope nat_scope.

Lemma record_report_terminal (job : ExportJob) (r : StatusReport) :
  is_terminal (status (record_report job r)) = is_terminal (reportedStatus r).
Proof.
  unfold record_report.
  destruct (reportedStatus r); try reflexivity.
  destruct (reportedLocator r); reflexivity.
Qed.

(** A recorded report never leaves a Complete job without its locator. *)
Lemma record_report_complete (job : ExportJob) (r : StatusReport) :
  status (record_report job r) = Complete ->
  exists l, contentLocator (record_report job r) = Some l.
Proof.
  unfold record_report.
  destruct (reportedStatus r); simpl; try discriminate.
  destruct (reportedLocator r) as [l|]; simpl; [eauto|discriminate].
Qed.



Section Loop.

Variable remote : Remote.
Variable p : PollPolicy.

(** One attempt of the loop, spelled out. *)
Lemma poll_step (left' a : nat) (d e : Q) (job : ExportJob) :
  poll remote p (S left') a d e job =
    let known := absorb remote job a in
    if answer_terminal (remote a) then (Returned known, [Query a (status job)])
    else
      match left' with
      | O => (PollTimeout (status known), [Query a (status job)])
      | S _ =>
          if under_timeout p e then
            (fst (poll remote p left' (S a) (next_delay p d) (e + d)%Q known),
             Query a (status job) :: Suspend d
               :: snd (poll remote p left' (S a) (next_delay p d) (e + d)%Q known))
          else (PollTimeout (status known), [Query a (status job)])
      end.
Proof.
  cbn [poll]. unfold absorb, answer_terminal.
  destruct (remote a) as [r|].
  - rewrite record_report_terminal.
    destruct (is_terminal (reportedStatus r)); [reflexivity|].
    destruct left' as [|l]; [reflexivity|].
    destruct (under_timeout p e); [|reflexivity].
    destruct (poll remote p (S l) (S a) (next_delay p d) (e + d)%Q
                   (record_report job r)); reflexivity.
  - destruct left' as [|l]; [reflexivity|].
    destruct (under_timeout p e); [|reflexivity].
    destruct (poll remote p (S l) (S a) (next_delay p d) (e + d)%Q job);
      reflexivity.
Qed.

Ltac step_cases a e l :=
  rewrite poll_step; cbv zeta;
  destruct (answer_terminal (remote a)) eqn:?Hans;
  [|destruct l as [|?l];
    [|destruct (under_timeout p e) eqn:?Hunder]];
  cbn [fst snd].

(** A returned job is what a report with a terminal status was recorded as. *)
Lemma poll_returned (left : nat) : forall a d e job j,
  fst (poll remote p left a d e job) = Returned j ->
  is_terminal (status j) = true
  /\ exists job' r, j = record_report job' r.
Proof.
  induction left as [|l IH]; intros a d e job j; [discriminate|].
  step_cases a e l; try discriminate.
  - intros [= <-]. unfold absorb, answer_terminal in *.
    destruct (remote a) as [r|]; [|discriminate].
    rewrite record_report_terminal. eauto.
  - apply IH.
Qed.



(** A queried attempt answered by Complete without a locator ends the run
    with a Failed job. *)
Lemma poll_missing_locator (left : nat) : forall a d e job k s reason,
  In (Query k s) (snd (poll remote p left a d e job)) ->
  remote k = Reported {| reportedStatus := Complete; reportedLocator := None;
                         reportedReason := reason |} ->
  exists j, fst (poll remote p left a d e job) = Returned j
            /\ status j = Failed
            /\ failureReason j = Some "missing content locator"%string
            /\ contentLocator j = None.
Proof.
  induction left as [|l IH]; intros a d e job k s reason; [intros []|].
  step_cases a e l.
  - intros [[= <- _]|[]] Hk. unfold absorb. rewrite Hk.
    eexists. split; [reflexivity|]. repeat split.
  - intros [[= <- _]|[]] Hk. unfold answer_terminal in Hans.
    rewrite Hk in Hans. discriminate.
  - intros [[= <- _]|[[=]|Hin]] Hk.
    + unfold answer_terminal in Hans. rewrite Hk in Hans. discriminate.
    + eapply IH; eauto.
  - intros [[= <- _]|[]] Hk. unfold answer_terminal in Hans.
    rewrite Hk in Hans. discriminate.
Qed.






End Loop.

(** *** The result of a run *)

(** C4: when an attempt the poller makes is answered by Complete without a
    content locator, the run returns the job as Failed with the reason
    "missing content locator" and without locator; and a job the poller
    returns as Complete always has its locator. *)
Theorem complete_without_locator_is_failed (remote : Remote) (job : ExportJob)
    (p : PollPolicy) :
  (forall k s reason,
     In (Query k s) (snd (awaitCompletion remote job p)) ->
     remote k = Reported {| reportedStatus := Complete; reportedLocator := None;
                            reportedReason := reason |} ->
     exists j, fst (awaitCompletion remote job p) = Returned j
               /\ status j = Failed
               /\ failureReason j = Some "missing content locator"%string
               /\ contentLocator j = None)
  /\ (forall j, fst (awaitCompletion remote job p) = Returned j ->
                status j = Complete -> exists l, contentLocator j = Some l).
Proof.
  split.
  - intros k s reason. apply poll_missing_locator.
  - intros j Hj Hs.
    destruct (poll_returned remote p _ _ _ _ _ _ Hj) as (_ & job' & r & ->).
    now apply record_report_complete.
Qed.

Lemma complete_without_locator_is_failed_witness :
  exists j,
    fst (awaitCompletion (remote_completing None) job_j1 policy_100_2_1000)
      = Returned j
    /\ status j = Failed
    /\ failureReason j = Some "missing content locator"%string
    /\ contentLocator j = None.
Proof.
  apply (proj1 (complete_without_locator_is_failed
                  (remote_completing None) job_j1 policy_100_2_1000)
               3 InProgress None).
  - simpl. auto 20.
  - reflexivity.
Defined.






End PollerFacts.

(* ================================================================== *)
(** ** More on the page previews *)
(* ================================================================== *)

Module PeekFacts.

Import Js Server JsFacts Examples.
Local Open Scope nat_scope.
Local Open Scope string_scope.

Lemma append_nil_r (s : string) : s ++ "" = s.
Proof. induction s as [|c s IH]; simpl; [reflexivity|now rewrite IH]. Qed.

Lemma append_assoc (s t u : string) : (s ++ t) ++ u = s ++ t ++ u.
Proof. induction s as [|c s IH]; simpl; [reflexivity|now rewrite IH]. Qed.

Lemma length_append (s t : string) :
  String.length (s ++ t) = String.length s + String.length t.
Proof. induction s as [|c s IH]; simpl; [reflexivity|now rewrite IH]. Qed.

Lemma join_app (sep : string) (l1 l2 : list string) :
  l1 <> [] -> l2 <> [] ->
  join sep (l1 ++ l2) = join sep l1 ++ sep ++ join sep l2.
Proof.
  intros H1 H2. induction l1 as [|x [|y l] IH]; [congruence| |].
  - simpl app. now rewrite join_cons.
  - change ((x :: y :: l) ++ l2)%list with (x :: ((y :: l) ++ l2))%list.
    rewrite join_cons by discriminate.
    rewrite IH by discriminate.
    rewrite (join_cons sep x (y :: l)) by discriminate.
    now rewrite !append_assoc.
Qed.

Lemma join_app_prefix (sep : string) (l1 l2 : list string) :
  exists rest, join sep (l1 ++ l2) = join sep l1 ++ rest.
Proof.
  destruct l1 as [|a A]; [simpl; eauto|].
  destruct l2 as [|b B].
  - exists "". now rewrite app_nil_r, append_nil_r.
  - rewrite join_app by discriminate. eauto.
Qed.

(** Joining fewer of the leading pieces gives a prefix of joining more. *)
Lemma join_firstn_prefix (sep : string) (l : list string) (n m : nat) :
  n <= m ->
  exists rest, join sep (firstn m l) = join sep (firstn n l) ++ rest.
Proof.
  intros Hnm.
  destruct (join_app_prefix sep (firstn n (firstn m l)) (skipn n (firstn m l)))
    as (rest & E).
  rewrite firstn_skipn, firstn_firstn in E.
  replace (Nat.min n m) with n in E by lia.
  exists rest. exact E.
Qed.

Lemma length_normalize_newlines (s : string) :
  String.length (normalize_newlines s) <= String.length s.
Proof.
  induction s as [s IH] using string_length_ind.
  destruct s as [|c rest]; [simpl; lia|].
  assert (Hrest : String.length (normalize_newlines rest) <= String.length rest)
    by (apply IH; simpl; lia).
  simpl normalize_newlines.
  destruct (c =? CR)%char; [|simpl; lia].
  destruct rest as [|c' rest']; [simpl; lia|].
  destruct (c' =? LF)%char; [|simpl in *; lia].
  assert (String.length (normalize_newlines rest') <= String.length rest')
    by (apply IH; simpl; lia).
  simpl. lia.
Qed.

(** A content in which no [\r\n] occurs is its own normal form. *)
Lemma normalize_newlines_no_crlf (s : string) :
  (forall a b, s <> a ++ crlf ++ b) -> normalize_newlines s = s.
Proof.
  induction s as [|c rest IH]; intros Hno; [reflexivity|].
  assert (Hrest : normalize_newlines rest = rest).
  { apply IH. intros a b E. apply (Hno (String c a) b). simpl. now rewrite E. }
  simpl. destruct (c =? CR)%char eqn:Ecr; [|now rewrite Hrest].
  destruct rest as [|c' rest']; [reflexivity|].
  destruct (c' =? LF)%char eqn:Elf; [|now rewrite Hrest].
  apply Ascii.eqb_eq in Ecr, Elf. subst. exfalso. apply (Hno "" rest').
  reflexivity.
Qed.

(** What [coda_peek_page] returns for a content that is not empty. *)
Lemma peek_success (cl : Client) (docId page content : string) (n : Z)
    (log : list Call) :
  getPageContent cl docId page = inr (Some content) ->
  content <> "" ->
  coda_peek_page cl docId page n log
  = (inr (success (join (String LF "") (slice0 n (split_lines content)))),
     (log ++ [GetPageContent docId page])%list).
Proof.
  intros Hget Hne. unfold coda_peek_page, try_catch, bind, call, ret, throw.
  rewrite Hget. destruct content as [|c rest]; [congruence|reflexivity].
Qed.

(** X1: a longer preview extends a shorter one.  For a non-empty content and
    [0 < n <= m], the text [coda_peek_page] returns for [n] lines is a prefix
    of the text it returns for [m] lines. *)
Theorem peek_prefix_monotone (cl : Client) (docId page content : string)
    (n m : Z) (log : list Call) :
  getPageContent cl docId page = inr (Some content) ->
  content <> "" ->
  (0 < n <= m)%Z ->
  exists short rest,
    fst (coda_peek_page cl docId page n log) = inr (success short)
    /\ fst (coda_peek_page cl docId page m log) = inr (success (short ++ rest)).
Proof.
  intros Hget Hne Hnm.
  rewrite !(peek_success cl docId page content) by assumption.
  rewrite !slice0_firstn by lia.
  set (len := Z.of_nat (length (split_lines content))).
  destruct (join_firstn_prefix (String LF "") (split_lines content)
              (Z.to_nat (Z.min n len)) (Z.to_nat (Z.min m len)))
    as (rest & E); [lia|].
  exists (join (String LF "") (firstn (Z.to_nat (Z.min n len)) (split_lines content))).
  exists rest. simpl. now rewrite E.
Qed.

Lemma peek_prefix_monotone_witness :
  exists short rest,
    fst (coda_peek_page (client_with_content (Some ("a" ++ nl ++ "b" ++ crlf ++ "c")))
                        "doc" "page" 1 [])
      = inr (success short)
    /\ fst (coda_peek_page (client_with_content (Some ("a" ++ nl ++ "b" ++ crlf ++ "c")))
                           "doc" "page" 3 [])
      = inr (success (short ++ rest)).
Proof.
  apply (peek_prefix_monotone
           (client_with_content (Some ("a" ++ nl ++ "b" ++ crlf ++ "c")))
           "doc" "page" ("a" ++ nl ++ "b" ++ crlf ++ "c") 1 3 []);
    [reflexivity|discriminate|lia].
Defined.

(** X2: a preview is never longer than the content it is taken from. *)
Theorem peek_not_longer_than_content (cl : Client)
    (docId page content : string) (n : Z) (log : list Call) :
  getPageContent cl docId page = inr (Some content) ->
  content <> "" ->
  (0 < n)%Z ->
  exists preview,
    fst (coda_peek_page cl docId page n log) = inr (success preview)
    /\ String.length preview <= String.length content.
Proof.
  intros Hget Hne Hn.
  rewrite (peek_success cl docId page content) by assumption.
  rewrite slice0_firstn by lia.
  eexists. split; [reflexivity|].
  destruct (join_firstn_prefix (String LF "") (split_lines content)
              (Z.to_nat (Z.min n (Z.of_nat (length (split_lines content)))))
              (length (split_lines content)))
    as (rest & E); [lia|].
  rewrite firstn_all, join_split_lines in E.
  pose proof (length_normalize_newlines content) as Hlen.
  rewrite E, length_append in Hlen. lia.
Qed.

Lemma peek_not_longer_than_content_witness :
  exists preview,
    fst (coda_peek_page (client_with_content (Some ("a" ++ crlf ++ "b")))
                        "doc" "page" 5 [])
      = inr (success preview)
    /\ String.length preview <= 4.
Proof.
  apply (peek_not_longer_than_content
           (client_with_content (Some ("a" ++ crlf ++ "b")))
           "doc" "page" ("a" ++ crlf ++ "b") 5 []);
    [reflexivity|discriminate|lia].
Defined.

(** X3: on a non-empty content in which no [\r\n] occurs, a peek of at least
    as many lines as the page has returns exactly what
    [coda_get_page_content] returns, and issues the same call. *)
Theorem peek_all_lines_is_get (cl : Client) (docId page content : string)
    (n : Z) (log : list Call) :
  getPageContent cl docId page = inr (Some content) ->
  content <> "" ->
  (forall a b, content <> a ++ crlf ++ b) ->
  (Z.of_nat (length (split_lines content)) <= n)%Z ->
  coda_peek_page cl docId page n log = coda_get_page_content cl docId page log
  /\ fst (coda_peek_page cl docId page n log) = inr (success content).
Proof.
  intros Hget Hne Hno Hn.
  assert (E : coda_peek_page cl docId page n log
              = (inr (success content), (log ++ [GetPageContent docId page])%list)).
  { rewrite (peek_success cl docId page content) by assumption.
    rewrite slice0_firstn by lia.
    replace (Z.to_nat (Z.min n (Z.of_nat (length (split_lines content)))))
      with (length (split_lines content)) by lia.
    rewrite firstn_all, join_split_lines, normalize_newlines_no_crlf by assumption.
    reflexivity. }
  split; [|now rewrite E].
  rewrite E. unfold coda_get_page_content, try_catch, bind, call, ret.
  now rewrite Hget.
Qed.

Lemma crlf_occurrence_has_CR (s a b : string) :
  s = a ++ crlf ++ b -> In CR (list_ascii_of_string s).
Proof.
  intros ->. induction a as [|c a IH]; simpl; [now left|now right].
Qed.

Lemma peek_all_lines_is_get_witness :
  coda_peek_page (client_with_content (Some ("a" ++ nl ++ "b"))) "doc" "page" 2 []
  = coda_get_page_content (client_with_content (Some ("a" ++ nl ++ "b")))
                          "doc" "page" [].
Proof.
  apply (peek_all_lines_is_get (client_with_content (Some ("a" ++ nl ++ "b")))
           "doc" "page" ("a" ++ nl ++ "b") 2 []).
  - reflexivity.
  - discriminate.
  - intros a b E. apply crlf_occurrence_has_CR in E.
    vm_compute in E. intuition discriminate.
  - simpl. lia.
Defined.

(** X4: [coda_peek_page] and [coda_get_page_content] issue the same single
    call, the content retrieval, whatever its outcome; and the peek
    succeeds exactly when getting the content succeeds with a text that is
    not empty. *)
Theorem peek_succeeds_iff_get_nonempty (cl : Client) (docId page : string)
    (n : Z) (log : list Call) :
  snd (coda_peek_page cl docId page n log)
    = (log ++ [GetPageContent docId page])%list
  /\ snd (coda_get_page_content cl docId page log)
    = (log ++ [GetPageContent docId page])%list
  /\ ((exists preview,
         fst (coda_peek_page cl docId page n log) = inr (success preview))
      <-> (exists text,
             text <> ""
             /\ fst (coda_get_page_content cl docId page log)
                = inr (success text))).
Proof.
  unfold coda_peek_page, coda_get_page_content, try_catch, bind, call,
    to_string, ret, throw.
  destruct (getPageContent cl docId page) as [e|[[|c rest]|]]; simpl;
    [destruct (template e) as [raised|rendering]|..]; simpl;
    (split; [reflexivity|split; [reflexivity|]]).
  - split; [intros (t & [=])|intros (t & _ & [=])].
  - split; [intros (t & [=])|intros (t & _ & [=])].
  - split; [intros (t & [=])|intros (t & Ht & [= <-]); congruence].
  - split; [intros _|intros _]; eexists; [split; [|reflexivity]; discriminate|].
    reflexivity.
  - split; [intros (t & [=])|intros (t & _ & [=])].
Qed.

Lemma peek_succeeds_iff_get_nonempty_witness :
  exists preview,
    fst (coda_peek_page (client_with_content (Some "a")) "doc" "page" 1 [])
    = inr (success preview).
Proof.
  apply (proj2 (proj2 (proj2 (peek_succeeds_iff_get_nonempty
                                (client_with_content (Some "a")) "doc" "page" 1 [])))).
  exists "a". split; [discriminate|reflexivity].
Defined.

End PeekFacts.

(* ================================================================== *)
(** ** The other tools *)
(* ================================================================== *)

Module ToolsFacts.

Import Js Examples.
Local Open Scope nat_scope.
Local Open Scope string_scope.

(** After a handler is unfolded, the cases of its one request: it resolves,
    or it throws a value whose coercion gives a text or throws. *)
Ltac outcome_cases sdk :=
  destruct (sdk _) as [?e|?data]; [destruct (template _)|]; reflexivity.

Ltac run_tool :=
  unfold Tools.coda_list_documents, Tools.coda_create_page,
    Tools.coda_replace_page_content, Tools.coda_append_page_content,
    Tools.coda_rename_page, Tools.coda_resolve_link, Tools.coda_list_rows,
    Tools.coda_update_row, Tools.coda_upsert_rows, Tools.coda_list_tables,
    Tools.coda_get_table, Tools.coda_list_columns, Tools.coda_get_column,
    Tools.coda_get_row, Tools.coda_delete_row, Tools.coda_delete_rows,
    Tools.coda_push_button, Tools.try_catch, Tools.bind, Tools.send,
    Tools.to_string, Tools.ret.

(** X6: [coda_duplicate_page] has no check on the content it retrieves.
    Whatever [getPageContent] resolves to, a text, the empty string or
    [undefined], the handler goes on to [createPage] with that very content
    under the new name.  Its result is then the text of the created page's
    data, as a success (with an undefined text when there is no data); or,
    when [createPage] throws, a result flagged as an error with the
    rendering of what was thrown under "Failed to duplicate page: "; or, when
    that rendering throws, the handler rejects with what it throws. *)
Theorem duplicate_forwards_content (cl : Server.Client)
    (docId page newName : string) (pageContent : option string)
    (log : list Server.Call) :
  Server.getPageContent cl docId page = inr pageContent ->
  let opts := {| Server.cp_docId := docId; Server.cp_name := newName;
                 Server.cp_type := "canvas"; Server.cp_format := "markdown";
                 Server.cp_content := pageContent |} in
  Server.coda_duplicate_page cl docId page newName log
  = (match Server.createPage cl opts with
     | inr (Some data) =>
         inr {| Server.content := [Server.Text data];
                Server.isError := false |}
     | inr None =>
         inr {| Server.content := [Server.TextUndefined];
                Server.isError := false |}
     | inl e =>
         match template e with
         | inr rendering =>
             inr {| Server.content :=
                      [Server.Text ("Failed to duplicate page: " ++ rendering)];
                    Server.isError := true |}
         | inl raised => inl raised
         end
     end,
     (log ++ [Server.GetPageContent docId page; Server.CreatePage opts])%list).
Proof.
  intros Hget opts.
  unfold Server.coda_duplicate_page, Server.try_catch, Server.bind,
    Server.call, Server.to_string, Server.ret.
  rewrite Hget. fold opts.
  destruct (Server.createPage cl opts) as [e|[data|]];
    [destruct (template e)| |]; rewrite <- app_assoc; reflexivity.
Qed.

Lemma duplicate_forwards_content_witness :
  Server.coda_duplicate_page (client_without_data None) "doc" "page" "copy" []
  = (inr {| Server.content := [Server.TextUndefined];
            Server.isError := false |},
     [Server.GetPageContent "doc" "page";
      Server.CreatePage {| Server.cp_docId := "doc"; Server.cp_name := "copy";
                           Server.cp_type := "canvas";
                           Server.cp_format := "markdown";
                           Server.cp_content := None |}]).
Proof.
  exact (duplicate_forwards_content (client_without_data None)
           "doc" "page" "copy" None [] eq_refl).
Defined.

(** X7: duplicating composes retrieval and creation.  For a page whose
    content is the text [c], the [createPage] request that
    [coda_duplicate_page] issues after the retrieval is the request that
    [coda_create_page] issues for the name [newName], the content [c] and no
    parent page. *)
Theorem duplicate_request_is_create_request (cl : Server.Client)
    (sdk : Tools.Sdk) (docId page newName c : string) :
  Server.getPageContent cl docId page = inr (Some c) ->
  exists o,
    snd (Server.coda_duplicate_page cl docId page newName [])
      = [Server.GetPageContent docId page; Server.CreatePage o]
    /\ snd (Tools.coda_create_page sdk docId newName (Some c) None [])
      = [Tools.of_duplicate_request o].
Proof.
  intros Hget.
  exists {| Server.cp_docId := docId; Server.cp_name := newName;
            Server.cp_type := "canvas"; Server.cp_format := "markdown";
            Server.cp_content := Some c |}.
  split.
  - unfold Server.coda_duplicate_page, Server.try_catch, Server.bind,
      Server.call, Server.to_string, Server.ret.
    rewrite Hget.
    destruct (Server.createPage cl _) as [e|data]; [destruct (template e)|];
      reflexivity.
  - run_tool. outcome_cases sdk.
Qed.

Lemma duplicate_request_is_create_request_witness :
  exists o,
    snd (Server.coda_duplicate_page (client_with_content (Some "text"))
           "doc" "page" "copy" [])
      = [Server.GetPageContent "doc" "page"; Server.CreatePage o]
    /\ snd (Tools.coda_create_page (Tools.sdk_resolving "{}")
              "doc" "copy" (Some "text") None [])
      = [Tools.of_duplicate_request o].
Proof.
  exact (duplicate_request_is_create_request
           (client_with_content (Some "text")) (Tools.sdk_resolving "{}")
           "doc" "page" "copy" "text" eq_refl).
Defined.

(** X8: [coda_create_page] always sends a content.  A content that is given
    is sent as it is, the empty string included; only an absent content is
    replaced, by a single space.  The parent page is sent as given. *)
Theorem create_page_content_sent (sdk : Tools.Sdk) (docId name : string)
    (content parentPageId : option string) (log : list Tools.Request) :
  exists sent,
    snd (Tools.coda_create_page sdk docId name content parentPageId log)
      = (log ++ [Tools.CreatePage docId name parentPageId "canvas" "markdown"
                   (Some sent)])%list
    /\ (forall c, content = Some c -> sent = c)
    /\ (content = None -> sent = " ").
Proof.
  exists (match content with Some c => c | None => " " end).
  split; [|split].
  - run_tool. destruct parentPageId; simpl; outcome_cases sdk.
  - now intros c ->.
  - now intros ->.
Qed.

Lemma create_page_content_sent_witness :
  snd (Tools.coda_create_page (Tools.sdk_resolving "{}") "doc" "new"
         (Some "") None [])
  = [Tools.CreatePage "doc" "new" None "canvas" "markdown" (Some "")].
Proof.
  destruct (create_page_content_sent (Tools.sdk_resolving "{}") "doc" "new"
              (Some "") None []) as (sent & E & Hsome & _).
  rewrite E, (Hsome "" eq_refl). reflexivity.
Defined.




End ToolsFacts.
